(** * sf-aws-connect: the [list-instances] command

    A shallow embedding of [src/commands/aws-connect/list-instances.ts]
    (class [ListInstances]) and the properties of its flag handling,
    authentication gate, result rendering and error reporting.

    Conventions of the embedding:
    - a JavaScript value that is [string | undefined] is an [option string],
      [None] standing for [undefined];
    - the parsed [flags] object is a finite map from property names to
      strings, so that reading a property no flag defines yields [None];
    - effects are a trace of events together with a completion (normal
      return or a thrown value), threaded by a small writer/exception monad. *)

From Stdlib Require Import ZArith String List.
From stdpp Require Import base option gmap strings list fin_maps.

Local Open Scope string_scope.
Local Open Scope Z_scope.
Local Open Scope list_scope.

(** ** JavaScript values used by the command *)

(** Truthiness of a [string | undefined]: [undefined] and the empty
    string are falsy, every other string is truthy. *)
Definition truthy (v : option string) : bool :=
  match v with
  | None => false
  | Some s => match s with EmptyString => false | String _ _ => true end
  end.

(** [a && b] returns [a] when [a] is falsy and [b] otherwise. *)
Definition js_and (a b : option string) : option string :=
  if truthy a then b else a.

(** [a || b] returns [a] when [a] is truthy and [b] otherwise. *)
Definition js_or (a b : option string) : option string :=
  if truthy a then a else b.

(** A thrown value: either an object that is [instanceof Error] (with its
    [name], its [message] and, for an error raised through the command
    framework, the exit code stored in [oclif.exit]), or anything else. *)
Inductive JsValue : Type :=
| JsError (name message : string) (oclifExit : option Z)
| JsNonError (repr : string).

(** How a call ends. *)
Inductive completion (A : Type) : Type :=
| Normal (a : A)
| Throw (v : JsValue).
Arguments Normal {A} a.
Arguments Throw {A} v.

(** ** Flag declarations ([static flags], lines 14-40) *)

Record FlagDef : Type := mkFlag {
  char : string;
  description : string;
  exclusive : list string;
  dependsOn : list string;
  default : option string
}.

Definition flagDefs : list (string * FlagDef) :=
  [ ("profile",
      mkFlag "p" "AWS profile for SSO" ["accessKeyId"; "secretAccessKey"] [] None);
    ("region",
      mkFlag "r" "AWS region" [] [] (Some "ap-southeast-2"));
    ("accessKeyId",
      mkFlag "k" "AWS access key ID" ["profile"] [] None);
    ("secretAccessKey",
      mkFlag "s" "AWS secret access key" [] ["accessKeyId"] None);
    ("secretSessionToken",
      mkFlag "t" "AWS token session key" [] ["accessKeyId"] None) ].

Definition declared (defs : list (string * FlagDef)) : list string :=
  map fst defs.

Definition isGiven (given : gmap string string) (n : string) : bool :=
  bool_decide (is_Some (given !! n)).

(** The relations a declaration puts on the flags given on the command
    line: a given flag excludes each flag of [exclusive] and needs each
    flag of [dependsOn]. *)
Definition relationsOk (given : gmap string string) (d : string * FlagDef) : bool :=
  if isGiven given (fst d)
  then forallb (fun n => negb (isGiven given n)) (exclusive (snd d))
       && forallb (isGiven given) (dependsOn (snd d))
  else true.

(** Declared defaults fill the flags that were not given. *)
Fixpoint applyDefaults (defs : list (string * FlagDef)) (m : gmap string string)
  : gmap string string :=
  match defs with
  | [] => m
  | (n, d) :: rest =>
      let m' := applyDefaults rest m in
      match default d, m' !! n with
      | Some v, None => <[n := v]> m'
      | _, _ => m'
      end
  end.

(** [this.parse(ListInstances)] (line 45) on the flags given by long
    name: an undeclared flag or a broken relation is rejected by the
    framework ([None]: the command body does not run); otherwise the
    result holds the given flags and the defaults. *)
Definition parse (given : gmap string string) : option (gmap string string) :=
  if forallb (fun n => bool_decide (n ∈ declared flagDefs)) (elements (dom given))
     && forallb (relationsOk given) flagDefs
  then Some (applyDefaults flagDefs given)
  else None.

(** ** The credential-selection record *)

Inductive AuthMethod : Type := sso | accessKey.

(** Modelled from the spec: the type [TAwsAccessFlags] is declared in
    [src/types/index.ts], which is not among the sources; its fields are
    those of the object literal of [run] (lines 47-54) and of the AuthConfig
    of the specification's data model. *)
Record TAwsAccessFlags : Type := mkConfig {
  accessKeyId : option string;
  authMethod : AuthMethod;
  profile : option string;
  region : option string;
  secretAccessKey : option string;
  secretSessionToken : option string
}.

(** The object literal of lines 47-54. *)
Definition buildConfig (flags : gmap string string) : TAwsAccessFlags :=
  {| accessKeyId := flags !! "accessKeyId";
     authMethod := if truthy (flags !! "profile") then sso else accessKey;
     profile := flags !! "profile";
     region := flags !! "region";
     secretAccessKey := flags !! "secretAccessKey";
     secretSessionToken := flags !! "secretToken" |}.

(** The access-key operand of the validity test (line 57, right of [||]). *)
Definition accessKeyOperand (config : TAwsAccessFlags) : option string :=
  js_and (js_and (accessKeyId config) (secretAccessKey config))
         (secretSessionToken config).

(** [isAuthValid] (lines 56-57). *)
Definition isAuthValid (config : TAwsAccessFlags) : option string :=
  js_or (profile config) (accessKeyOperand config).

(** ** The request sent to the service *)

(** The input of [ListInstancesCommand]: its two optional parameters. *)
Record ListInstancesCommandInput : Type := mkInput {
  MaxResults : option Z;
  NextToken : option string
}.

(** [new ListInstancesCommand({})] (line 72). *)
Definition emptyInput : ListInstancesCommandInput :=
  {| MaxResults := None; NextToken := None |}.

(** ** Messages *)

Definition authRequiredMessage : string :=
  "Auth is required: either AWS profile or access key credentials (accessKeyId, secretAccessKey and secretSessionToken) must be provided.".

Definition noInstancesMessage : string := "No Amazon Connect instances found.".

Definition authenticationErrorMessage : string :=
  "Authentication Error: Please check your AWS credentials and region.".

Definition listingErrorPrefix : string := "Error listing Amazon Connect instances: ".

(** The exit code the oclif framework stores in [oclif.exit] of the error
    that [this.error] raises when the call passes no [exit] option. *)
Definition defaultErrorExit : Z := 2.

(** The process exit status the framework derives from the way [run]
    ends: 0 on a normal return, [oclif.exit] of the thrown error when it
    has one, and 1 for any other thrown value. *)
Definition exitStatus {A : Type} (c : completion A) : Z :=
  match c with
  | Normal _ => 0
  | Throw (JsError _ _ (Some code)) => code
  | Throw _ => 1
  end.

(** The message the framework reports on the error channel. *)
Definition reportedError {A : Type} (c : completion A) : option string :=
  match c with
  | Throw (JsError _ msg _) => Some msg
  | _ => None
  end.

Section Command.

(** An instance summary is opaque to the command. *)
Context {InstanceSummary : Type}.

(** The response of the list request. *)
Record ListInstancesCommandOutput : Type := mkOutput {
  InstanceSummaryList : option (list InstanceSummary)
}.

(** The service client: [connectClient.send(command)]. *)
Record ConnectClient : Type := mkClient {
  send : ListInstancesCommandInput -> completion ListInstancesCommandOutput
}.

(** The handle [AwsService.getInstance(config)] returns, with its
    [getConnectClient()]. *)
Record AwsService : Type := mkService {
  getConnectClient : completion ConnectClient
}.

(** The collaborator [AwsService] of [src/services/aws-service.ts],
    which is injected: any behaviour of it is allowed. *)
Record World : Type := mkWorld {
  getInstance : TAwsAccessFlags -> completion AwsService
}.

(** What the command does that can be observed from outside. *)
Inductive Event : Type :=
| EvGetInstance (config : TAwsAccessFlags)
| EvGetConnectClient
| EvSend (input : ListInstancesCommandInput)
| EvLog (line : string)
| EvConsoleLog (label : string) (list : list InstanceSummary).

(** A computation: the events it produced and how it ended. *)
Definition M (A : Type) : Type := (list Event * completion A)%type.

Definition ret {A : Type} (a : A) : M A := ([], Normal a).

Definition bind {A B : Type} (m : M A) (k : A -> M B) : M B :=
  match m with
  | (t, Normal a) => let (t', r) := k a in (t ++ t', r)
  | (t, Throw v) => (t, Throw v)
  end.

Definition throw {A : Type} (v : JsValue) : M A := ([], Throw v).

(** A call to a collaborator: the call is recorded, then it completes. *)
Definition call {A : Type} (e : Event) (c : completion A) : M A := ([e], c).

(** [try { body } catch (error) { handler }]. *)
Definition tryCatch {A : Type} (body : M A) (handler : JsValue -> M A) : M A :=
  match body with
  | (t, Normal a) => (t, Normal a)
  | (t, Throw v) => let (t', r) := handler v in (t ++ t', r)
  end.

(** [this.log(line)]. *)
Definition this_log (line : string) : M unit := ([EvLog line], Normal tt).

(** [console.log(label, list)]. *)
Definition console_log (label : string) (l : list InstanceSummary) : M unit :=
  ([EvConsoleLog label l], Normal tt).

(** [this.error(message, { exit })]: throws an error carrying the
    message and the exit code. *)
Definition this_error {A : Type} (message : string) (exit : option Z) : M A :=
  throw (JsError "Error" message
           (Some (match exit with Some code => code | None => defaultErrorExit end))).

Notation "'let!' x ':=' m 'in' k" := (bind m (fun x => k))
  (at level 10, x name, m at level 100, k at level 200).
Notation "'do!' m 'in' k" := (bind m (fun _ => k))
  (at level 10, m at level 100, k at level 200).

(** The rendering of a response (lines 75-80): the test
    [!list || list.length === 0] holds for an absent list, and for a
    list that is there it compares its length with 0. *)
Definition render (response : ListInstancesCommandOutput) : M unit :=
  match InstanceSummaryList response with
  | None => this_log noInstancesMessage
  | Some l =>
      if (length l =? 0)%nat
      then this_log noInstancesMessage
      else console_log "Instances:" l
  end.

(** The [catch] block (lines 81-90): [error instanceof Error] holds for
    [JsError] alone; any other value falls through both tests. *)
Definition handleError (error : JsValue) : M unit :=
  match error with
  | JsError name message _ =>
      if String.eqb name "UnrecognizedClientException"
      then this_error authenticationErrorMessage None
      else this_error (listingErrorPrefix +:+ message) None
  | JsNonError _ => ret tt
  end.

(** [listInstances] (lines 67-91). *)
Definition listInstances (w : World) (config : TAwsAccessFlags) : M unit :=
  let! awsService := call (EvGetInstance config) (getInstance w config) in
  tryCatch
    (let! connectClient := call EvGetConnectClient (getConnectClient awsService) in
     let command := emptyInput in
     let! response := call (EvSend command) (send connectClient command) in
     render response)
    handleError.

(** [run] (lines 44-65), after the flags are parsed. *)
Definition run (w : World) (flags : gmap string string) : M unit :=
  let config := buildConfig flags in
  do! (if negb (truthy (isAuthValid config))
       then this_error authRequiredMessage (Some 1)
       else ret tt) in
  listInstances w config.

(** ** Observations on a trace *)

(** The lines written with [this.log]. *)
Definition logged (t : list Event) : list string :=
  omap (fun e => match e with EvLog s => Some s | _ => None end) t.

(** The instance lists written with [console.log]. *)
Definition printed (t : list Event) : list (list InstanceSummary) :=
  omap (fun e => match e with EvConsoleLog _ l => Some l | _ => None end) t.

(** The calls that reach the service collaborator. *)
Definition isNetwork (e : Event) : bool :=
  match e with
  | EvGetInstance _ | EvGetConnectClient | EvSend _ => true
  | _ => false
  end.

Definition networkCalls (t : list Event) : list Event := filter isNetwork t.

End Command.

Arguments ListInstancesCommandOutput InstanceSummary : clear implicits.
Arguments ConnectClient InstanceSummary : clear implicits.
Arguments AwsService InstanceSummary : clear implicits.
Arguments World InstanceSummary : clear implicits.
Arguments Event InstanceSummary : clear implicits.
Arguments M InstanceSummary A : clear implicits.

(** ** Concrete invocations *)

(** [--profile dev]. *)
Definition devGiven : gmap string string := {[ "profile" := "dev" ]}.

(** [--accessKeyId A --secretAccessKey B --secretSessionToken C]. *)
Definition tripleGiven : gmap string string :=
  <["accessKeyId" := "A"]>
    (<["secretAccessKey" := "B"]> {[ "secretSessionToken" := "C" ]}).

(** [--profile ""]: a profile that is given and empty. *)
Definition emptyProfileGiven : gmap string string := {[ "profile" := "" ]}.

Definition withRegion (given : gmap string string) : gmap string string :=
  <["region" := "ap-southeast-2"]> given.

(** A collaborator whose client answers every list request with [answer]. *)
Definition answering {InstanceSummary : Type}
    (answer : completion (ListInstancesCommandOutput InstanceSummary))
  : World InstanceSummary :=
  {| getInstance := fun _ =>
       Normal {| getConnectClient := Normal {| send := fun _ => answer |} |} |}.

(** A value that is given and is not the empty string. *)
Definition nonEmpty (v : option string) : Prop := ∃ s, v = Some s ∧ s ≠ "".

(** The error the service raises for rejected credentials. *)
Definition unrecognizedClient : JsValue :=
  JsError "UnrecognizedClientException"
          "The security token included in the request is invalid." None.

(** A generic error with message [timeout]. *)
Definition timeoutError : JsValue := JsError "Error" "timeout" None.

(** The error [this.error] throws. *)
Definition cliError (message : string) (exit : Z) : JsValue :=
  JsError "Error" message (Some exit).

(** The three collaborator calls of a run that reaches the list request. *)
Definition requestTrace (InstanceSummary : Type) (config : TAwsAccessFlags)
  : list (Event InstanceSummary) :=
  [EvGetInstance config; EvGetConnectClient; EvSend emptyInput].

(** The parsed flags for given flags that pass: the one declared default,
    of [region], is filled in when [--region] is not given. *)
Definition withDefaultRegion (given : gmap string string) : gmap string string :=
  match given !! "region" with
  | Some _ => given
  | None => withRegion given
  end.

(** [--region us-east-1 --profile dev]. *)
Definition devUsGiven : gmap string string :=
  <["region" := "us-east-1"]> devGiven.

(** A collaborator whose [getInstance] throws [v]. *)
Definition failingService {InstanceSummary : Type} (v : JsValue)
  : World InstanceSummary :=
  {| getInstance := fun _ => Throw v |}.

(** A collaborator whose [getConnectClient] throws [v]. *)
Definition failingClient {InstanceSummary : Type} (v : JsValue)
  : World InstanceSummary :=
  {| getInstance := fun _ => Normal {| getConnectClient := Throw v |} |}.

(** The list requests of a trace. *)
Definition sentRequests {InstanceSummary : Type} (t : list (Event InstanceSummary))
  : list ListInstancesCommandInput :=
  omap (fun e => match e with EvSend input => Some input | _ => None end) t.

(** The configs handed to [AwsService.getInstance] in a trace. *)
Definition serviceConfigs {InstanceSummary : Type} (t : list (Event InstanceSummary))
  : list TAwsAccessFlags :=
  omap (fun e => match e with EvGetInstance config => Some config | _ => None end) t.

(** ** Flag parsing *)

Lemma applyDefaults_lookup_other defs (m : gmap string string) (k : string) :
  k ∉ declared defs → applyDefaults defs m !! k = m !! k.
Proof.
  induction defs as [|[n d] rest IH]; simpl; intros Hk; [done|].
  apply not_elem_of_cons in Hk as [Hne Hrest].
  destruct (default d) as [v|]; [|by apply IH].
  destruct (applyDefaults rest m !! n) eqn:E; [by apply IH|].
  rewrite lookup_insert_ne by done. by apply IH.
Qed.

Lemma parse_given_declared (given flags : gmap string string) (k : string) :
  parse given = Some flags → is_Some (given !! k) → k ∈ declared flagDefs.
Proof.
  unfold parse. intros Hp Hk.
  destruct (forallb _ (elements (dom given))) eqn:Hall; [|done].
  rewrite forallb_forall in Hall.
  eapply bool_decide_eq_true_1, Hall, list_elem_of_In, elem_of_elements.
  by apply elem_of_dom.
Qed.

Lemma parse_result (given flags : gmap string string) :
  parse given = Some flags → flags = applyDefaults flagDefs given.
Proof.
  unfold parse. destruct (_ && _); [|done]. by intros [= <-].
Qed.

(** A property that no flag declares is [undefined] on the parsed flags. *)
Lemma parse_undeclared (given flags : gmap string string) (k : string) :
  parse given = Some flags → k ∉ declared flagDefs → flags !! k = None.
Proof.
  intros Hp Hk. rewrite (parse_result _ _ Hp).
  rewrite applyDefaults_lookup_other by done.
  destruct (given !! k) eqn:E; [|done].
  exfalso. apply Hk. eapply parse_given_declared; [done|]. by rewrite E.
Qed.

Lemma secretToken_undeclared : "secretToken" ∉ declared flagDefs.
Proof. apply (bool_decide_eq_false_1 _). by vm_compute. Qed.

Lemma parse_secretToken (given flags : gmap string string) :
  parse given = Some flags → flags !! "secretToken" = None.
Proof. intros Hp. eapply parse_undeclared; [done|]. apply secretToken_undeclared. Qed.

Lemma parse_devGiven : parse devGiven = Some (withRegion devGiven).
Proof. by vm_compute. Qed.

Lemma parse_tripleGiven : parse tripleGiven = Some (withRegion tripleGiven).
Proof. by vm_compute. Qed.

Lemma parse_emptyProfileGiven :
  parse emptyProfileGiven = Some (withRegion emptyProfileGiven).
Proof. by vm_compute. Qed.

(** Flag parsing rejects a profile together with an access key id, and a
    secret without an access key id, before the command body runs. *)
Lemma parse_rejects_profile_with_accessKeyId :
  parse (<["accessKeyId" := "A"]> devGiven) = None.
Proof. by vm_compute. Qed.

Lemma parse_rejects_secret_alone :
  parse {[ "secretAccessKey" := "B" ]} = None.
Proof. by vm_compute. Qed.

(** ** The authentication gate *)

Lemma js_and_falsy_r (a : option string) : truthy (js_and a None) = false.
Proof. unfold js_and. by destruct (truthy a) eqn:E. Qed.

Lemma accessKeyOperand_falsy (config : TAwsAccessFlags) :
  secretSessionToken config = None → truthy (accessKeyOperand config) = false.
Proof. unfold accessKeyOperand. intros ->. apply js_and_falsy_r. Qed.

Lemma isAuthValid_profile (config : TAwsAccessFlags) :
  secretSessionToken config = None →
  truthy (isAuthValid config) = truthy (profile config).
Proof.
  intros Hs. unfold isAuthValid, js_or.
  destruct (truthy (profile config)) eqn:E; [done|].
  by apply accessKeyOperand_falsy.
Qed.

Lemma truthy_nonempty (v : option string) :
  truthy v = true ↔ ∃ s, v = Some s ∧ s ≠ "".
Proof.
  split.
  - destruct v as [[|c s]|]; simpl; try done. intros _. by eexists.
  - intros ([|c s] & -> & Hs); simpl; done.
Qed.

Section Gate.
Context {InstanceSummary : Type}.
Implicit Types (w : World InstanceSummary) (flags : gmap string string).

Lemma run_rejected w flags :
  truthy (isAuthValid (buildConfig flags)) = false →
  run w flags = ([], Throw (cliError authRequiredMessage 1)).
Proof. unfold run. by intros ->. Qed.

Lemma run_accepted w flags :
  truthy (isAuthValid (buildConfig flags)) = true →
  run w flags = listInstances w (buildConfig flags).
Proof.
  unfold run. intros ->. simpl. by destruct (listInstances _ _).
Qed.

(** A run whose collaborator hands out a client goes through the three
    collaborator calls, then renders the response or handles the error. *)
Lemma listInstances_request w config service client :
  getInstance w config = Normal service →
  getConnectClient service = Normal client →
  listInstances w config =
    let k := match send client emptyInput with
             | Normal response => render response
             | Throw error => handleError error
             end in
    (requestTrace InstanceSummary config ++ fst k, snd k).
Proof.
  intros Hs Hc. unfold listInstances, call, bind, tryCatch.
  rewrite Hs, Hc. simpl.
  destruct (send client emptyInput) as [response|error]; simpl.
  - unfold render. by destruct (InstanceSummaryList response) as [[|x l]|].
  - by destruct (handleError error).
Qed.

End Gate.

Lemma applyDefaults_lookup_nodefault defs (m : gmap string string) (k : string) :
  (∀ d, (k, d) ∈ defs → default d = None) →
  applyDefaults defs m !! k = m !! k.
Proof.
  induction defs as [|[n d] rest IH]; simpl; intros Hd; [done|].
  assert (applyDefaults rest m !! k = m !! k) as IH'.
  { apply IH. intros d' Hin. apply Hd. by right. }
  destruct (default d) as [v|] eqn:Ed; [|done].
  destruct (applyDefaults rest m !! n) eqn:E; [done|].
  rewrite lookup_insert_ne; [done|].
  intros ->. specialize (Hd d (list_elem_of_here _ _)). congruence.
Qed.

(** The value of the [--secretSessionToken] flag is on the parsed flags
    under the name of the flag. *)
Lemma parse_secretSessionToken (given flags : gmap string string) :
  parse given = Some flags →
  flags !! "secretSessionToken" = given !! "secretSessionToken".
Proof.
  intros Hp. rewrite (parse_result _ _ Hp).
  apply applyDefaults_lookup_nodefault. intros d Hd.
  unfold flagDefs in Hd.
  repeat (apply elem_of_cons in Hd as [Heq|Hd]; [by simplify_eq|]).
  by apply elem_of_nil in Hd.
Qed.

(** ** The access-key triple (C1, C2) *)

(** C1 (the code departs from it): with [accessKeyId = "A"],
    [secretAccessKey = "B"], [secretSessionToken = "C"] and no profile, the
    flags are parsed and hold the three values, but the config built from
    them has no [secretSessionToken], so the run stops with the
    configuration error and exit code 1 before any collaborator call. *)
Theorem run_tripleGiven_rejected (InstanceSummary : Type) (w : World InstanceSummary) :
  let flags := withRegion tripleGiven in
  parse tripleGiven = Some flags ∧
  flags !! "profile" = None ∧
  flags !! "accessKeyId" = Some "A" ∧
  flags !! "secretAccessKey" = Some "B" ∧
  flags !! "secretSessionToken" = Some "C" ∧
  authMethod (buildConfig flags) = accessKey ∧
  secretSessionToken (buildConfig flags) = None ∧
  truthy (isAuthValid (buildConfig flags)) = false ∧
  run w flags = ([], Throw (cliError authRequiredMessage 1)) ∧
  exitStatus (run w flags).2 = 1.
Proof.
  intros flags. repeat split; by vm_compute.
Qed.

(** C2: for every parsed flag set the config has [secretSessionToken]
    undefined, whatever value the [--secretSessionToken] flag carries; the
    access-key operand of the validity test is never truthy, and validation
    succeeds exactly when [profile] is non-empty. *)
Theorem secretSessionToken_never_populated (given flags : gmap string string) :
  parse given = Some flags →
  flags !! "secretSessionToken" = given !! "secretSessionToken" ∧
  secretSessionToken (buildConfig flags) = None ∧
  truthy (accessKeyOperand (buildConfig flags)) = false ∧
  (truthy (isAuthValid (buildConfig flags)) = true ↔ nonEmpty (flags !! "profile")) ∧
  (∀ (InstanceSummary : Type) (w : World InstanceSummary),
     (nonEmpty (flags !! "profile") →
      run w flags = listInstances w (buildConfig flags)) ∧
     (¬ nonEmpty (flags !! "profile") →
      run w flags = ([], Throw (cliError authRequiredMessage 1)))).
Proof.
  intros Hp.
  assert (secretSessionToken (buildConfig flags) = None) as Hs
    by exact (parse_secretToken _ _ Hp).
  assert (truthy (isAuthValid (buildConfig flags)) = true
          ↔ nonEmpty (flags !! "profile")) as Hiff.
  { rewrite isAuthValid_profile by done. apply truthy_nonempty. }
  split; [by apply parse_secretSessionToken|].
  split; [done|]. split; [by apply accessKeyOperand_falsy|]. split; [done|].
  intros IS w. split.
  - intros Hn. apply run_accepted. by apply Hiff.
  - intros Hn. apply run_rejected.
    destruct (truthy (isAuthValid (buildConfig flags))) eqn:E; [|done].
    exfalso. apply Hn. by apply Hiff.
Qed.

Lemma secretSessionToken_never_populated_witness :
  parse tripleGiven = Some (withRegion tripleGiven) ∧
  withRegion tripleGiven !! "secretSessionToken" = Some "C" ∧
  secretSessionToken (buildConfig (withRegion tripleGiven)) = None.
Proof.
  pose proof (secretSessionToken_never_populated
                tripleGiven (withRegion tripleGiven) parse_tripleGiven)
    as (Hflag & Hconfig & _).
  split; [exact parse_tripleGiven|]. split; [|exact Hconfig].
  rewrite Hflag. reflexivity.
Defined.

(** A profile that is given and empty is falsy: the config gets
    [authMethod] [accessKey] and does not pass the gate. *)
Lemma emptyProfile_config :
  profile (buildConfig (withRegion emptyProfileGiven)) = Some "" ∧
  authMethod (buildConfig (withRegion emptyProfileGiven)) = accessKey ∧
  truthy (isAuthValid (buildConfig (withRegion emptyProfileGiven))) = false.
Proof. repeat split; by vm_compute. Qed.

(** ** The configuration error (C3) *)

(** C3: when neither [profile] is non-empty nor all three of
    [accessKeyId], [secretAccessKey], [secretSessionToken] are non-empty,
    the run throws the configuration error with exit code 1, which is
    reported and gives a non-zero exit status, and the trace is empty: the
    collaborator is not asked for a client and no list request is sent. *)
Theorem run_without_credentials_fails
    (InstanceSummary : Type) (w : World InstanceSummary)
    (given flags : gmap string string) :
  parse given = Some flags →
  ¬ (nonEmpty (flags !! "profile") ∨
     (nonEmpty (flags !! "accessKeyId") ∧
      nonEmpty (flags !! "secretAccessKey") ∧
      nonEmpty (flags !! "secretSessionToken"))) →
  run w flags = ([], Throw (cliError authRequiredMessage 1)) ∧
  reportedError (run w flags).2 = Some authRequiredMessage ∧
  exitStatus (run w flags).2 = 1 ∧
  exitStatus (run w flags).2 ≠ 0 ∧
  networkCalls (run w flags).1 = [] ∧
  (run w flags).1 = [].
Proof.
  intros Hp Hnone.
  assert (run w flags = ([], Throw (cliError authRequiredMessage 1))) as ->.
  { apply run_rejected.
    rewrite isAuthValid_profile by exact (parse_secretToken _ _ Hp).
    destruct (truthy (profile (buildConfig flags))) eqn:E; [|done].
    exfalso. apply Hnone. left. by apply truthy_nonempty. }
  by repeat split.
Qed.

Lemma run_without_credentials_fails_witness :
  run (answering (InstanceSummary := string)
         (Normal {| InstanceSummaryList := Some ["instance-1"] |}))
      (withRegion emptyProfileGiven)
  = ([], Throw (cliError authRequiredMessage 1)).
Proof.
  refine (proj1 (run_without_credentials_fails string _
                   emptyProfileGiven (withRegion emptyProfileGiven) _ _)).
  - vm_compute. reflexivity.
  - intros [(s & Hs & Hne)|((s & Hs & _) & _)].
    + vm_compute in Hs. injection Hs as <-. apply Hne. reflexivity.
    + vm_compute in Hs. discriminate Hs.
Defined.

(** ** The authentication method (C4) *)

(** C4: [authMethod] is a function of [profile] alone, [sso] for a
    non-empty profile and [accessKey] otherwise; with [profile = "dev"] and
    no access-key flag the flags are parsed, the config has [authMethod]
    [sso], it passes the gate, and the run goes on to [listInstances]. *)
Theorem authMethod_from_profile :
  (∀ flags : gmap string string,
     (nonEmpty (flags !! "profile") → authMethod (buildConfig flags) = sso) ∧
     (¬ nonEmpty (flags !! "profile") → authMethod (buildConfig flags) = accessKey)) ∧
  (∀ flags flags' : gmap string string,
     flags !! "profile" = flags' !! "profile" →
     authMethod (buildConfig flags) = authMethod (buildConfig flags')) ∧
  (let flags := withRegion devGiven in
   parse devGiven = Some flags ∧
   flags !! "accessKeyId" = None ∧
   flags !! "secretAccessKey" = None ∧
   flags !! "secretSessionToken" = None ∧
   profile (buildConfig flags) = Some "dev" ∧
   authMethod (buildConfig flags) = sso ∧
   truthy (isAuthValid (buildConfig flags)) = true ∧
   ∀ (InstanceSummary : Type) (w : World InstanceSummary),
     run w flags = listInstances w (buildConfig flags)).
Proof.
  split; [|split].
  - intros flags. unfold buildConfig; simpl. split.
    + intros Hn. apply truthy_nonempty in Hn. by rewrite Hn.
    + intros Hn. destruct (truthy (flags !! "profile")) eqn:E; [|done].
      exfalso. by apply Hn, truthy_nonempty.
  - intros flags flags' Heq. unfold buildConfig; simpl. by rewrite Heq.
  - intros flags. repeat split; try by vm_compute.
    intros IS w. by apply run_accepted.
Qed.

(** ** Errors of the list request (C5, C6, C7) *)

Section RequestOutcome.
Context {InstanceSummary : Type}.
Implicit Types (w : World InstanceSummary) (flags : gmap string string).

(** A run that passes the gate and is handed a client: what follows the
    three collaborator calls is decided by the answer to the request. *)
Lemma run_request w flags service client :
  truthy (isAuthValid (buildConfig flags)) = true →
  getInstance w (buildConfig flags) = Normal service →
  getConnectClient service = Normal client →
  run w flags =
    let k := match send client emptyInput with
             | Normal response => render response
             | Throw error => handleError error
             end in
    (requestTrace InstanceSummary (buildConfig flags) ++ fst k, snd k).
Proof.
  intros Hv Hs Hc. rewrite run_accepted by done.
  by apply (listInstances_request w _ service client).
Qed.

End RequestOutcome.

(** C5 (amended): when the list request throws an error object named
    [UnrecognizedClientException], the run throws the authentication-error
    message, which is not the listing-error message, and the exit status is
    non-zero: the error is raised with no exit option, so it carries the
    framework's default error code 2. *)
Theorem run_unrecognized_client
    (InstanceSummary : Type) (w : World InstanceSummary)
    (flags : gmap string string) service client
    (message : string) (oclifExit : option Z) :
  truthy (isAuthValid (buildConfig flags)) = true →
  getInstance w (buildConfig flags) = Normal service →
  getConnectClient service = Normal client →
  send client emptyInput =
    Throw (JsError "UnrecognizedClientException" message oclifExit) →
  run w flags = (requestTrace InstanceSummary (buildConfig flags),
                 Throw (cliError authenticationErrorMessage defaultErrorExit)) ∧
  reportedError (run w flags).2 = Some authenticationErrorMessage ∧
  reportedError (run w flags).2 ≠ Some (listingErrorPrefix +:+ message) ∧
  logged (run w flags).1 = [] ∧
  exitStatus (run w flags).2 = 2 ∧
  exitStatus (run w flags).2 ≠ 0.
Proof.
  intros Hv Hs Hc Hsend.
  rewrite (run_request w flags service client Hv Hs Hc), Hsend. simpl.
  repeat split; try done.
Qed.

Lemma run_unrecognized_client_witness :
  reportedError
    (run (answering (InstanceSummary := string) (Throw unrecognizedClient))
         (withRegion devGiven)).2
  = Some authenticationErrorMessage.
Proof.
  refine (proj1 (proj2 (run_unrecognized_client string
    (answering (Throw unrecognizedClient)) (withRegion devGiven)
    {| getConnectClient := Normal {| send := fun _ => Throw unrecognizedClient |} |}
    {| send := fun _ => Throw unrecognizedClient |}
    "The security token included in the request is invalid." None _ _ _ _))).
  - vm_compute. reflexivity.
  - reflexivity.
  - reflexivity.
  - reflexivity.
Defined.

(** C5 as stated fails: with [--profile dev] and a client that throws
    [UnrecognizedClientException], the exit status is 2, not 1. *)
Lemma run_unrecognized_client_exit_counterexample :
  ¬ (reportedError
       (run (answering (InstanceSummary := string) (Throw unrecognizedClient))
            (withRegion devGiven)).2
     = Some authenticationErrorMessage ∧
     exitStatus
       (run (answering (InstanceSummary := string) (Throw unrecognizedClient))
            (withRegion devGiven)).2
     = 1).
Proof. intros [_ Hexit]. vm_compute in Hexit. discriminate Hexit. Qed.

(** C6 (amended): when the list request throws an error object with
    another name, the run throws the listing-error prefix followed by the
    message of that error (for [timeout], the text
    [Error listing Amazon Connect instances: timeout]), and the exit status
    is non-zero: the error is raised with no exit option, so it carries the
    framework's default error code 2. *)
Theorem run_other_error
    (InstanceSummary : Type) (w : World InstanceSummary)
    (flags : gmap string string) service client
    (name message : string) (oclifExit : option Z) :
  truthy (isAuthValid (buildConfig flags)) = true →
  getInstance w (buildConfig flags) = Normal service →
  getConnectClient service = Normal client →
  send client emptyInput = Throw (JsError name message oclifExit) →
  name ≠ "UnrecognizedClientException" →
  run w flags = (requestTrace InstanceSummary (buildConfig flags),
                 Throw (cliError (listingErrorPrefix +:+ message) defaultErrorExit)) ∧
  reportedError (run w flags).2
    = Some ("Error listing Amazon Connect instances: " +:+ message) ∧
  (message = "timeout" →
   reportedError (run w flags).2
     = Some "Error listing Amazon Connect instances: timeout") ∧
  logged (run w flags).1 = [] ∧
  exitStatus (run w flags).2 = 2 ∧
  exitStatus (run w flags).2 ≠ 0.
Proof.
  intros Hv Hs Hc Hsend Hname.
  rewrite (run_request w flags service client Hv Hs Hc), Hsend. simpl.
  apply String.eqb_neq in Hname. rewrite Hname. simpl.
  repeat split; try done. by intros ->.
Qed.

Lemma run_other_error_witness :
  reportedError
    (run (answering (InstanceSummary := string) (Throw timeoutError))
         (withRegion devGiven)).2
  = Some "Error listing Amazon Connect instances: timeout".
Proof.
  refine (proj1 (proj2 (proj2 (run_other_error string
    (answering (Throw timeoutError)) (withRegion devGiven)
    {| getConnectClient := Normal {| send := fun _ => Throw timeoutError |} |}
    {| send := fun _ => Throw timeoutError |}
    "Error" "timeout" None _ _ _ _ _))) _).
  - vm_compute. reflexivity.
  - reflexivity.
  - reflexivity.
  - reflexivity.
  - discriminate.
  - reflexivity.
Defined.

(** C6 as stated fails: with [--profile dev] and a client that throws a
    generic error with message [timeout], the exit status is 2, not 1. *)
Lemma run_other_error_exit_counterexample :
  ¬ (reportedError
       (run (answering (InstanceSummary := string) (Throw timeoutError))
            (withRegion devGiven)).2
     = Some "Error listing Amazon Connect instances: timeout" ∧
     exitStatus
       (run (answering (InstanceSummary := string) (Throw timeoutError))
            (withRegion devGiven)).2
     = 1).
Proof. intros [_ Hexit]. vm_compute in Hexit. discriminate Hexit. Qed.

(** C7: when the list request throws a value that is not an error object,
    nothing is logged, printed or reported, and the run returns normally,
    with exit status 0. *)
Theorem run_non_error_swallowed
    (InstanceSummary : Type) (w : World InstanceSummary)
    (flags : gmap string string) service client (repr : string) :
  truthy (isAuthValid (buildConfig flags)) = true →
  getInstance w (buildConfig flags) = Normal service →
  getConnectClient service = Normal client →
  send client emptyInput = Throw (JsNonError repr) →
  run w flags = (requestTrace InstanceSummary (buildConfig flags), Normal tt) ∧
  logged (run w flags).1 = [] ∧
  printed (run w flags).1 = [] ∧
  reportedError (run w flags).2 = None ∧
  exitStatus (run w flags).2 = 0.
Proof.
  intros Hv Hs Hc Hsend.
  rewrite (run_request w flags service client Hv Hs Hc), Hsend. simpl.
  by repeat split.
Qed.

Lemma run_non_error_swallowed_witness :
  run (answering (InstanceSummary := string) (Throw (JsNonError "oops")))
      (withRegion devGiven)
  = (requestTrace string (buildConfig (withRegion devGiven)), Normal tt).
Proof.
  refine (proj1 (run_non_error_swallowed string
    (answering (Throw (JsNonError "oops"))) (withRegion devGiven)
    {| getConnectClient := Normal {| send := fun _ => Throw (JsNonError "oops") |} |}
    {| send := fun _ => Throw (JsNonError "oops") |}
    "oops" _ _ _ _)).
  - vm_compute. reflexivity.
  - reflexivity.
  - reflexivity.
  - reflexivity.
Defined.

(** ** Successful list requests (C8, C9, C10) *)

(** C8: when the list request succeeds with an empty instance list, the
    run logs the no-instances message and nothing else, prints no instance
    list, and returns normally, with exit status 0. *)
Theorem run_empty_list
    (InstanceSummary : Type) (w : World InstanceSummary)
    (flags : gmap string string) service client :
  truthy (isAuthValid (buildConfig flags)) = true →
  getInstance w (buildConfig flags) = Normal service →
  getConnectClient service = Normal client →
  send client emptyInput = Normal {| InstanceSummaryList := Some [] |} →
  run w flags = (requestTrace InstanceSummary (buildConfig flags)
                   ++ [EvLog noInstancesMessage], Normal tt) ∧
  logged (run w flags).1 = ["No Amazon Connect instances found."] ∧
  printed (run w flags).1 = [] ∧
  reportedError (run w flags).2 = None ∧
  exitStatus (run w flags).2 = 0.
Proof.
  intros Hv Hs Hc Hsend.
  rewrite (run_request w flags service client Hv Hs Hc), Hsend. simpl.
  by repeat split.
Qed.

Lemma run_empty_list_witness :
  logged
    (run (answering (InstanceSummary := string)
            (Normal {| InstanceSummaryList := Some [] |}))
         (withRegion devGiven)).1
  = ["No Amazon Connect instances found."].
Proof.
  refine (proj1 (proj2 (run_empty_list string
    (answering (Normal {| InstanceSummaryList := Some [] |}))
    (withRegion devGiven)
    {| getConnectClient :=
         Normal {| send := fun _ => Normal {| InstanceSummaryList := Some [] |} |} |}
    {| send := fun _ => Normal {| InstanceSummaryList := Some [] |} |}
    _ _ _ _))).
  - vm_compute. reflexivity.
  - reflexivity.
  - reflexivity.
  - reflexivity.
Defined.

(** C9: when the list request succeeds with one or more instance
    summaries, the run prints one list, which is the list the client
    returned, logs nothing, and returns normally. *)
Theorem run_prints_returned_list
    (InstanceSummary : Type) (w : World InstanceSummary)
    (flags : gmap string string) service client
    (summaries : list InstanceSummary) :
  truthy (isAuthValid (buildConfig flags)) = true →
  getInstance w (buildConfig flags) = Normal service →
  getConnectClient service = Normal client →
  send client emptyInput = Normal {| InstanceSummaryList := Some summaries |} →
  summaries ≠ [] →
  run w flags = (requestTrace InstanceSummary (buildConfig flags)
                   ++ [EvConsoleLog "Instances:" summaries], Normal tt) ∧
  printed (run w flags).1 = [summaries] ∧
  logged (run w flags).1 = [] ∧
  exitStatus (run w flags).2 = 0.
Proof.
  intros Hv Hs Hc Hsend Hne.
  rewrite (run_request w flags service client Hv Hs Hc), Hsend.
  unfold render. simpl.
  destruct summaries as [|summary rest]; [done|]. simpl.
  by repeat split.
Qed.

Lemma run_prints_returned_list_witness :
  printed
    (run (answering (InstanceSummary := string)
            (Normal {| InstanceSummaryList := Some ["b"; "a"; "b"] |}))
         (withRegion devGiven)).1
  = [["b"; "a"; "b"]].
Proof.
  refine (proj1 (proj2 (run_prints_returned_list string
    (answering (Normal {| InstanceSummaryList := Some ["b"; "a"; "b"] |}))
    (withRegion devGiven)
    {| getConnectClient :=
         Normal {| send := fun _ =>
                     Normal {| InstanceSummaryList := Some ["b"; "a"; "b"] |} |} |}
    {| send := fun _ => Normal {| InstanceSummaryList := Some ["b"; "a"; "b"] |} |}
    ["b"; "a"; "b"] _ _ _ _ _))).
  - vm_compute. reflexivity.
  - reflexivity.
  - reflexivity.
  - reflexivity.
  - discriminate.
Defined.

(** C10: when the list request succeeds and the response has no instance
    list, the run logs the no-instances message and returns normally; its
    trace and completion are those of any run on the same flags whose
    client returns an empty list. *)
Theorem run_missing_list
    (InstanceSummary : Type) (w : World InstanceSummary)
    (flags : gmap string string) service client :
  truthy (isAuthValid (buildConfig flags)) = true →
  getInstance w (buildConfig flags) = Normal service →
  getConnectClient service = Normal client →
  send client emptyInput = Normal {| InstanceSummaryList := None |} →
  run w flags = (requestTrace InstanceSummary (buildConfig flags)
                   ++ [EvLog noInstancesMessage], Normal tt) ∧
  logged (run w flags).1 = ["No Amazon Connect instances found."] ∧
  printed (run w flags).1 = [] ∧
  exitStatus (run w flags).2 = 0 ∧
  (∀ (w' : World InstanceSummary) service' client',
     getInstance w' (buildConfig flags) = Normal service' →
     getConnectClient service' = Normal client' →
     send client' emptyInput = Normal {| InstanceSummaryList := Some [] |} →
     run w flags = run w' flags).
Proof.
  intros Hv Hs Hc Hsend.
  rewrite (run_request w flags service client Hv Hs Hc), Hsend. simpl.
  repeat split; try done.
  intros w' service' client' Hs' Hc' Hsend'.
  by rewrite (run_request w' flags service' client' Hv Hs' Hc'), Hsend'.
Qed.

Lemma run_missing_list_witness :
  run (answering (InstanceSummary := string)
         (Normal {| InstanceSummaryList := None |}))
      (withRegion devGiven)
  = run (answering (InstanceSummary := string)
           (Normal {| InstanceSummaryList := Some [] |}))
        (withRegion devGiven).
Proof.
  refine (proj2 (proj2 (proj2 (proj2 (run_missing_list string
    (answering (Normal {| InstanceSummaryList := None |}))
    (withRegion devGiven)
    {| getConnectClient :=
         Normal {| send := fun _ => Normal {| InstanceSummaryList := None |} |} |}
    {| send := fun _ => Normal {| InstanceSummaryList := None |} |}
    _ _ _ _))))
    (answering (Normal {| InstanceSummaryList := Some [] |}))
    {| getConnectClient :=
         Normal {| send := fun _ => Normal {| InstanceSummaryList := Some [] |} |} |}
    {| send := fun _ => Normal {| InstanceSummaryList := Some [] |} |}
    _ _ _).
  - vm_compute. reflexivity.
  - reflexivity.
  - reflexivity.
  - reflexivity.
  - reflexivity.
  - reflexivity.
  - reflexivity.
Defined.

(** * Further properties of the command *)

(** ** The declared flag relations ([static flags], lines 14-40) *)

Lemma isGiven_spec (given : gmap string string) (n : string) :
  isGiven given n = true ↔ is_Some (given !! n).
Proof. unfold isGiven. apply bool_decide_eq_true. Qed.

Lemma isGiven_true (given : gmap string string) (n : string) :
  is_Some (given !! n) → isGiven given n = true.
Proof. apply isGiven_spec. Qed.

(** The relations of the five declarations, as one boolean formula. *)
Lemma relations_flagDefs (given : gmap string string) :
  forallb (relationsOk given) flagDefs =
    implb (isGiven given "profile")
          (negb (isGiven given "accessKeyId") && negb (isGiven given "secretAccessKey"))
    && implb (isGiven given "accessKeyId") (negb (isGiven given "profile"))
    && implb (isGiven given "secretAccessKey") (isGiven given "accessKeyId")
    && implb (isGiven given "secretSessionToken") (isGiven given "accessKeyId").
Proof.
  unfold flagDefs, relationsOk. simpl.
  by destruct (isGiven given "profile"), (isGiven given "region"),
       (isGiven given "accessKeyId"), (isGiven given "secretAccessKey"),
       (isGiven given "secretSessionToken").
Qed.

Lemma declared_check (given : gmap string string) :
  forallb (fun n => bool_decide (n ∈ declared flagDefs)) (elements (dom given)) = true
  ↔ ∀ k, is_Some (given !! k) → k ∈ declared flagDefs.
Proof.
  rewrite forallb_forall. split.
  - intros Hall k Hk. eapply bool_decide_eq_true_1, Hall, list_elem_of_In.
    by apply elem_of_elements, elem_of_dom.
  - intros Hall k Hk. apply bool_decide_eq_true_2, Hall.
    by apply elem_of_dom, elem_of_elements, list_elem_of_In.
Qed.

Lemma applyDefaults_flagDefs (given : gmap string string) :
  applyDefaults flagDefs given = withDefaultRegion given.
Proof.
  unfold flagDefs, withDefaultRegion, withRegion. simpl.
  by destruct (given !! "region").
Qed.

Lemma parse_relations (given flags : gmap string string) :
  parse given = Some flags → forallb (relationsOk given) flagDefs = true.
Proof.
  unfold parse. destruct (forallb _ (elements _)); [|done].
  by destruct (forallb (relationsOk given) flagDefs).
Qed.

Lemma parse_flags (given flags : gmap string string) :
  parse given = Some flags → flags = withDefaultRegion given.
Proof.
  intros Hp. rewrite <- applyDefaults_flagDefs. by apply parse_result.
Qed.

(** Parsed flags differ from the given ones on [region] at most. *)
Lemma parse_lookup_other (given flags : gmap string string) (k : string) :
  parse given = Some flags → k ≠ "region" → flags !! k = given !! k.
Proof.
  intros Hp Hk. rewrite (parse_flags _ _ Hp).
  unfold withDefaultRegion, withRegion.
  destruct (given !! "region"); [done|]. by rewrite lookup_insert_ne.
Qed.

Lemma isGiven_false (given : gmap string string) (n : string) :
  isGiven given n = false → given !! n = None.
Proof.
  intros Hn. destruct (given !! n) eqn:E; [|done].
  assert (isGiven given n = true) by (apply isGiven_true; by rewrite E).
  congruence.
Qed.

(** Accepted flags with a profile hold no access key id and no secret. *)
Lemma parse_profile_alone (given flags : gmap string string) :
  parse given = Some flags →
  is_Some (given !! "profile") →
  given !! "accessKeyId" = None ∧ given !! "secretAccessKey" = None.
Proof.
  intros Hp Hprofile. apply parse_relations in Hp.
  rewrite relations_flagDefs, (isGiven_true _ _ Hprofile) in Hp.
  destruct (isGiven given "accessKeyId") eqn:Ea; [done|].
  destruct (isGiven given "secretAccessKey") eqn:Es; [done|].
  split; by apply isGiven_false.
Qed.

(** X1: a command line with [--profile] and any of [--accessKeyId],
    [--secretAccessKey], [--secretSessionToken] is rejected by flag parsing;
    the last one is not in the [exclusive] list of [profile], it is excluded
    through its dependence on [accessKeyId]. *)
Theorem parse_rejects_profile_with_access_key (given : gmap string string) :
  is_Some (given !! "profile") →
  is_Some (given !! "accessKeyId") ∨
  is_Some (given !! "secretAccessKey") ∨
  is_Some (given !! "secretSessionToken") →
  parse given = None.
Proof.
  intros Hp Hk. destruct (parse given) as [flags|] eqn:E; [|done].
  apply parse_relations in E. rewrite relations_flagDefs in E.
  rewrite (isGiven_true _ _ Hp) in E.
  destruct Hk as [Hk|[Hk|Hk]]; rewrite (isGiven_true _ _ Hk) in E;
    by destruct (isGiven given "accessKeyId"), (isGiven given "secretAccessKey"),
         (isGiven given "secretSessionToken").
Qed.

Lemma parse_rejects_profile_with_access_key_witness :
  parse (<["secretSessionToken" := "C"]> devGiven) = None.
Proof.
  apply parse_rejects_profile_with_access_key.
  - vm_compute. eexists. reflexivity.
  - right. right. vm_compute. eexists. reflexivity.
Defined.

(** X2: a command line with [--secretAccessKey] or [--secretSessionToken]
    and no [--accessKeyId] is rejected by flag parsing. *)
Theorem parse_rejects_secret_without_key (given : gmap string string) :
  is_Some (given !! "secretAccessKey") ∨ is_Some (given !! "secretSessionToken") →
  given !! "accessKeyId" = None →
  parse given = None.
Proof.
  intros Hk Ha. destruct (parse given) as [flags|] eqn:E; [|done].
  apply parse_relations in E. rewrite relations_flagDefs in E.
  assert (isGiven given "accessKeyId" = false) as Hf.
  { destruct (isGiven given "accessKeyId") eqn:Ea; [|done].
    apply isGiven_spec in Ea as [v Hv]. congruence. }
  rewrite Hf in E.
  destruct Hk as [Hk|Hk]; rewrite (isGiven_true _ _ Hk) in E;
    by destruct (isGiven given "profile"), (isGiven given "secretAccessKey"),
         (isGiven given "secretSessionToken").
Qed.

Lemma parse_rejects_secret_without_key_witness :
  parse {[ "secretSessionToken" := "C" ]} = None.
Proof.
  apply parse_rejects_secret_without_key.
  - right. vm_compute. eexists. reflexivity.
  - vm_compute. reflexivity.
Defined.

(** X3: flag parsing succeeds exactly when every given flag is declared,
    [--profile] comes with neither [--accessKeyId] nor [--secretAccessKey],
    and each of [--secretAccessKey], [--secretSessionToken] comes with
    [--accessKeyId]; the parsed flags are then the given flags, with
    [region] set to [ap-southeast-2] when [--region] is not given. *)
Theorem parse_succeeds_iff (given flags : gmap string string) :
  parse given = Some flags ↔
  (∀ k, is_Some (given !! k) → k ∈ declared flagDefs) ∧
  ¬ (is_Some (given !! "profile") ∧
     (is_Some (given !! "accessKeyId") ∨ is_Some (given !! "secretAccessKey"))) ∧
  (is_Some (given !! "secretAccessKey") → is_Some (given !! "accessKeyId")) ∧
  (is_Some (given !! "secretSessionToken") → is_Some (given !! "accessKeyId")) ∧
  flags = withDefaultRegion given.
Proof.
  unfold parse. rewrite relations_flagDefs, applyDefaults_flagDefs.
  rewrite <- !isGiven_spec, <- declared_check.
  destruct (forallb _ (elements (dom given))); simpl; [|intuition congruence].
  destruct (isGiven given "profile"), (isGiven given "accessKeyId"),
    (isGiven given "secretAccessKey"), (isGiven given "secretSessionToken");
    simpl; intuition congruence.
Qed.

(** X4: for every parsed flag set the config carries a region: the one
    given with [--region], and [ap-southeast-2] when none is given. *)
Theorem region_given_or_default (given flags : gmap string string) :
  parse given = Some flags →
  region (buildConfig flags) =
    match given !! "region" with
    | Some r => Some r
    | None => Some "ap-southeast-2"
    end.
Proof.
  intros Hp. rewrite (parse_flags _ _ Hp).
  unfold buildConfig, withDefaultRegion, withRegion; simpl.
  destruct (given !! "region") as [r|] eqn:E; [done|].
  apply lookup_insert_eq.
Qed.

Lemma region_given_or_default_witness :
  region (buildConfig devUsGiven) = Some "us-east-1" ∧
  region (buildConfig (withRegion devGiven)) = Some "ap-southeast-2".
Proof.
  split.
  - refine (region_given_or_default devUsGiven devUsGiven _).
    vm_compute. reflexivity.
  - refine (region_given_or_default devGiven (withRegion devGiven) _).
    vm_compute. reflexivity.
Defined.

(** ** The validity test (lines 56-57) *)

(** X5: on any config, the validity test is truthy exactly when [profile]
    is non-empty or all three of [accessKeyId], [secretAccessKey],
    [secretSessionToken] are non-empty. *)
Theorem isAuthValid_iff (config : TAwsAccessFlags) :
  truthy (isAuthValid config) = true ↔
  nonEmpty (profile config) ∨
  (nonEmpty (accessKeyId config) ∧
   nonEmpty (secretAccessKey config) ∧
   nonEmpty (secretSessionToken config)).
Proof.
  unfold nonEmpty. rewrite <- !truthy_nonempty.
  unfold isAuthValid, accessKeyOperand, js_or, js_and.
  destruct (truthy (profile config)) eqn:Ep; [by split; [left|]|].
  destruct (truthy (accessKeyId config)) eqn:Ea; [|rewrite Ea].
  - destruct (truthy (secretAccessKey config)) eqn:Es; [|rewrite Es];
      intuition congruence.
  - intuition congruence.
Qed.

(** ** The paths of a run *)

Ltac handler_paths thrown :=
  destruct thrown as [?name ?message ?code|?repr]; simpl;
  [ match goal with
    | |- context [String.eqb ?n "UnrecognizedClientException"] =>
        destruct (String.eqb n "UnrecognizedClientException") eqn:?Hname; simpl
    end
  | ].

(** Splits the goal along the paths of [run w flags]: the gate, the three
    collaborator calls, the shape of the response and of a thrown value. *)
Ltac run_paths w flags :=
  unfold run, listInstances, call, bind, tryCatch, render, handleError,
    this_error, this_log, console_log, throw, ret;
  destruct (truthy (isAuthValid (buildConfig flags))) eqn:?Hgate; simpl;
  [ destruct (getInstance w (buildConfig flags)) as [?service|?thrown] eqn:?Hservice;
    simpl;
    [ match goal with
      | |- context [getConnectClient ?s] =>
          destruct (getConnectClient s) as [?client|?thrown] eqn:?Hclient; simpl;
          [ match goal with
            | |- context [send ?c emptyInput] =>
                destruct (send c emptyInput) as [?response|?thrown] eqn:?Hsend; simpl;
                [ match goal with
                  | |- context [InstanceSummaryList ?r] =>
                      destruct (InstanceSummaryList r) as [[|?summary ?rest]|]
                        eqn:?Hlist; simpl
                  end
                | match goal with
                  | |- context [match ?v with JsError _ _ _ => _ | JsNonError _ => _ end] =>
                      handler_paths v
                  end ]
            end
          | match goal with
            | |- context [match ?v with JsError _ _ _ => _ | JsNonError _ => _ end] =>
                handler_paths v
            end ]
      end
    | ]
  | ].

(** ** What reaches the service collaborator *)

(** X6: for parsed flags, every config handed to [AwsService.getInstance]
    is the config built from the flags, and it selects the profile: its
    [authMethod] is [sso], its profile is non-empty, and it holds no access
    key id, no secret access key and no session token. *)
Theorem service_config_is_sso
    (InstanceSummary : Type) (w : World InstanceSummary)
    (given flags : gmap string string) (config : TAwsAccessFlags) :
  parse given = Some flags →
  config ∈ serviceConfigs (run w flags).1 →
  config = buildConfig flags ∧
  authMethod config = sso ∧
  nonEmpty (profile config) ∧
  accessKeyId config = None ∧
  secretAccessKey config = None ∧
  secretSessionToken config = None.
Proof.
  intros Hp Hin.
  assert (truthy (isAuthValid (buildConfig flags)) = true ∧ config = buildConfig flags)
    as [Hgate ->].
  { revert Hin. run_paths w flags; intros Hin;
      repeat (apply elem_of_cons in Hin as [Hin|Hin]; [done|]);
      by apply elem_of_nil in Hin. }
  pose proof (parse_secretToken _ _ Hp) as Htoken.
  pose proof Hgate as Hprofile.
  rewrite isAuthValid_profile in Hprofile by done. simpl in Hprofile.
  assert (is_Some (given !! "profile")) as Hgiven.
  { rewrite <- (parse_lookup_other _ _ _ Hp) by done.
    by destruct (flags !! "profile"). }
  destruct (parse_profile_alone _ _ Hp Hgiven) as [Hkey Hsecret].
  split; [done|]. split; [by simpl; rewrite Hprofile|].
  split; [by apply truthy_nonempty|].
  split; [by simpl; rewrite (parse_lookup_other _ _ _ Hp)|].
  split; [|done]. simpl. by rewrite (parse_lookup_other _ _ _ Hp).
Qed.

Lemma service_config_is_sso_witness :
  authMethod (buildConfig (withRegion devGiven)) = sso.
Proof.
  refine (proj1 (proj2 (service_config_is_sso string
    (answering (Normal {| InstanceSummaryList := None |}))
    devGiven (withRegion devGiven) (buildConfig (withRegion devGiven)) _ _))).
  - vm_compute. reflexivity.
  - vm_compute. constructor.
Defined.

(** ** Failures of the collaborator before the request *)

(** X7: [AwsService.getInstance] is called outside the [try] block: when
    it throws, the thrown value leaves [run] as it is, whatever its shape,
    after that single call; no client is asked for and nothing is written. *)
Theorem run_getInstance_throws
    (InstanceSummary : Type) (w : World InstanceSummary)
    (flags : gmap string string) (v : JsValue) :
  truthy (isAuthValid (buildConfig flags)) = true →
  getInstance w (buildConfig flags) = Throw v →
  run w flags = ([EvGetInstance (buildConfig flags)], Throw v).
Proof.
  intros Hv Hthrow. rewrite run_accepted by done.
  unfold listInstances, call, bind. by rewrite Hthrow.
Qed.

Lemma run_getInstance_throws_witness :
  reportedError
    (run (failingService (InstanceSummary := string) unrecognizedClient)
         (withRegion devGiven)).2
  = Some "The security token included in the request is invalid.".
Proof.
  rewrite (run_getInstance_throws string (failingService unrecognizedClient)
             (withRegion devGiven) unrecognizedClient).
  - reflexivity.
  - vm_compute. reflexivity.
  - reflexivity.
Defined.

(** X8: [getConnectClient] is awaited inside the [try] block: when it
    throws, the [catch] block decides as for a failed request (the
    authentication message for an error named [UnrecognizedClientException],
    the listing message with the error's text for another error, nothing at
    all for a value that is not an error) and no list request is sent. *)
Theorem run_getConnectClient_throws
    (InstanceSummary : Type) (w : World InstanceSummary)
    (flags : gmap string string) service (v : JsValue) :
  truthy (isAuthValid (buildConfig flags)) = true →
  getInstance w (buildConfig flags) = Normal service →
  getConnectClient service = Throw v →
  (run w flags).1 = [EvGetInstance (buildConfig flags); EvGetConnectClient] ∧
  sentRequests (run w flags).1 = [] ∧
  (run w flags).2 =
    match v with
    | JsError name message _ =>
        if String.eqb name "UnrecognizedClientException"
        then Throw (cliError authenticationErrorMessage defaultErrorExit)
        else Throw (cliError (listingErrorPrefix +:+ message) defaultErrorExit)
    | JsNonError _ => Normal tt
    end.
Proof.
  intros Hv Hs Hc. rewrite run_accepted by done.
  unfold listInstances, call, bind, tryCatch. rewrite Hs; simpl. rewrite Hc; simpl.
  destruct v as [name message code|repr]; simpl; [|done].
  by destruct (String.eqb name "UnrecognizedClientException").
Qed.

Lemma run_getConnectClient_throws_witness :
  (run (failingClient (InstanceSummary := string) timeoutError)
       (withRegion devGiven)).2
  = Throw (cliError "Error listing Amazon Connect instances: timeout" 2).
Proof.
  refine (proj2 (proj2 (run_getConnectClient_throws string
    (failingClient timeoutError) (withRegion devGiven)
    {| getConnectClient := Throw timeoutError |} timeoutError _ _ _))).
  - vm_compute. reflexivity.
  - reflexivity.
  - reflexivity.
Defined.

(** ** Invariants of every run *)

(** X9: whatever the flags and the collaborator do, a run calls the
    collaborator along a prefix of [getInstance], [getConnectClient],
    [send]; it sends at most one list request, and that request has no
    parameters. *)
Theorem run_sends_at_most_one_request
    (InstanceSummary : Type) (w : World InstanceSummary)
    (flags : gmap string string) :
  networkCalls (run w flags).1
    `prefix_of` requestTrace InstanceSummary (buildConfig flags) ∧
  (sentRequests (run w flags).1 = [] ∨
   sentRequests (run w flags).1 = [emptyInput]).
Proof.
  unfold requestTrace.
  run_paths w flags; (split; [|by (left + right)]).
  all: try (by apply prefix_nil).
  all: try done.
  all: try (by eexists [_]).
  all: try (by eexists [_; _]).
Qed.

(** X10: whatever the flags and the collaborator do, a run writes at most
    one thing to the output (one logged line or one printed list), and a
    run that ends by throwing has written nothing. *)
Theorem run_writes_at_most_once
    (InstanceSummary : Type) (w : World InstanceSummary)
    (flags : gmap string string) :
  (length (logged (run w flags).1) + length (printed (run w flags).1) ≤ 1)%nat ∧
  (∀ v, (run w flags).2 = Throw v →
        logged (run w flags).1 = [] ∧ printed (run w flags).1 = []).
Proof.
  run_paths w flags; (split; [simpl; lia|]); by intros v'.
Qed.

(** X11: a list is printed only when it is the non-empty list of a
    response the client returned to the request of this run. *)
Theorem printed_list_was_returned
    (InstanceSummary : Type) (w : World InstanceSummary)
    (flags : gmap string string) (summaries : list InstanceSummary) :
  summaries ∈ printed (run w flags).1 →
  summaries ≠ [] ∧
  ∃ service client response,
    getInstance w (buildConfig flags) = Normal service ∧
    getConnectClient service = Normal client ∧
    send client emptyInput = Normal response ∧
    InstanceSummaryList response = Some summaries.
Proof.
  run_paths w flags; intros Hin;
    repeat (apply elem_of_cons in Hin as [Hin|Hin]; [|]);
    try (by apply elem_of_nil in Hin).
  subst. split; [done|]. by eexists _, _, _.
Qed.

Lemma printed_list_was_returned_witness :
  ["b"; "a"] ≠ [] ∧
  ∃ service client response,
    getInstance (answering (Normal {| InstanceSummaryList := Some ["b"; "a"] |}))
                (buildConfig (withRegion devGiven)) = Normal service ∧
    getConnectClient service = Normal client ∧
    send client emptyInput = Normal response ∧
    InstanceSummaryList response = Some ["b"; "a"].
Proof.
  apply (printed_list_was_returned string
           (answering (Normal {| InstanceSummaryList := Some ["b"; "a"] |}))
           (withRegion devGiven) ["b"; "a"]).
  vm_compute. constructor.
Defined.

(** X12: the only line a run logs is the no-instances message, and it is
    logged only when the client returned a response whose instance list is
    absent or empty. *)
Theorem logged_line_means_no_instances
    (InstanceSummary : Type) (w : World InstanceSummary)
    (flags : gmap string string) (line : string) :
  line ∈ logged (run w flags).1 →
  line = "No Amazon Connect instances found." ∧
  ∃ service client response,
    getInstance w (buildConfig flags) = Normal service ∧
    getConnectClient service = Normal client ∧
    send client emptyInput = Normal response ∧
    (InstanceSummaryList response = None ∨ InstanceSummaryList response = Some []).
Proof.
  run_paths w flags; intros Hin;
    repeat (apply elem_of_cons in Hin as [Hin|Hin]; [|]);
    try (by apply elem_of_nil in Hin).
  - subst. split; [done|]. eexists _, _, _. eauto.
  - subst. split; [done|]. eexists _, _, _. eauto.
Qed.

Lemma logged_line_means_no_instances_witness :
  ∃ service client response,
    getInstance (answering (InstanceSummary := string)
                   (Normal {| InstanceSummaryList := None |}))
                (buildConfig (withRegion devGiven)) = Normal service ∧
    getConnectClient service = Normal client ∧
    send client emptyInput = Normal response ∧
    (InstanceSummaryList response = None ∨ InstanceSummaryList response = Some []).
Proof.
  refine (proj2 (logged_line_means_no_instances string
           (answering (Normal {| InstanceSummaryList := None |}))
           (withRegion devGiven) "No Amazon Connect instances found." _)).
  vm_compute. constructor.
Defined.

(** ** How a run ends *)



(** X14: a run returns normally exactly when it passes the gate, is
    handed a service, and then either the client answers the request, or a
    value that is not an error object is thrown by [getConnectClient] or by
    the request: a normal return does not show that a response was read. *)
Theorem run_returns_normally_iff
    (InstanceSummary : Type) (w : World InstanceSummary)
    (flags : gmap string string) :
  (run w flags).2 = Normal tt ↔
  truthy (isAuthValid (buildConfig flags)) = true ∧
  ∃ service,
    getInstance w (buildConfig flags) = Normal service ∧
    ((∃ repr, getConnectClient service = Throw (JsNonError repr)) ∨
     (∃ client,
        getConnectClient service = Normal client ∧
        ((∃ response, send client emptyInput = Normal response) ∨
         (∃ repr, send client emptyInput = Throw (JsNonError repr))))).
Proof.
  run_paths w flags; split.
  all: match goal with
       | |- Normal tt = Normal tt → _ =>
           intros _; split; [done|]; eexists; split; [reflexivity|]; eauto 10
       | |- Throw _ = Normal tt → _ => intros [=]
       | |- _ → Normal tt = Normal tt => reflexivity
       | |- _ → Throw _ = Normal tt =>
           intros (Hg & s & Hs & [[r Hc]|(c & Hc & [[r Hr]|[r Hr]])]); congruence
       end.
Qed.
